(** * s3-link-generator: the Lambda handler and its duration formatter

    A shallow embedding of [src/s3-link-generator/s3-link-generator.py].

    - Python [int] is [Z] (unbounded); [//] by a positive constant is
      [Z.div], which floors.  The interpreter's configurable cap on the
      number of digits of an int/str conversion is not modelled.
    - Python [str] is [string].
    - The event handed to the handler is a decoded JSON document: [json].
    - [os.environ] is a finite map from names to strings.
    - The two boto3 clients, the clock and the process environment form the
      [World] of one invocation.  A client call either returns or raises.
    - An exception is an instance of a class below [Exception], what the
      interpreter and the libraries raise for an error.  [KeyboardInterrupt]
      and [SystemExit], which an [except Exception] clause lets through, are
      not modelled.
    - Everything the handler does besides computing its result (log lines and
      the two client calls, with what they answered) is written, in order, to
      a trace. *)

From Stdlib Require Import ZArith DecimalString SpecFloat Ascii.
From stdpp Require Import base strings list gmap.

Set Warnings "-register-all".
Local Open Scope string_scope.
Local Open Scope Z_scope.

(** ** Values *)

(** A decoded JSON document, as [json.loads] builds it.  An object keeps its
    members in insertion order; [assoc] reads the first binding of a key (a
    Python dict holds one per key). *)
Inductive json : Type :=
| JNull
| JBool (b : bool)
| JInt (z : Z)
| JFloat (f : spec_float)
| JStr (s : string)
| JList (l : list json)
| JDict (d : list (string * json)).

Fixpoint assoc {A : Type} (key : string) (d : list (string * A)) : option A :=
  match d with
  | [] => None
  | (k, v) :: d' => if String.eqb k key then Some v else assoc key d'
  end.

(** Truth value of a Python object, as [not x] tests it. *)
Definition truthy (v : json) : bool :=
  match v with
  | JNull => false
  | JBool b => b
  | JInt z => negb (z =? 0)
  | JFloat (S754_zero _) => false
  | JFloat _ => true
  | JStr s => negb (String.eqb s EmptyString)
  | JList l => match l with [] => false | _ => true end
  | JDict d => match d with [] => false | _ => true end
  end.

(** [type(v).__name__] *)
Definition type_name (v : json) : string :=
  match v with
  | JNull => "NoneType"
  | JBool _ => "bool"
  | JInt _ => "int"
  | JFloat _ => "float"
  | JStr _ => "str"
  | JList _ => "list"
  | JDict _ => "dict"
  end.

(** [str(n)] for an int: decimal digits, a leading minus sign when negative. *)
Definition str_of_int (n : Z) : string := NilZero.string_of_int (Z.to_int n).

(** ** format_expiration_time (source lines 113-133) *)

Definition format_expiration_time (seconds : Z) : string :=
  if seconds <? 60 then
    str_of_int seconds +:+ " seconds"
  else if seconds <? 3600 then
    let minutes := seconds / 60 in
    str_of_int minutes +:+ " minute" +:+ (if negb (minutes =? 1) then "s" else EmptyString)
  else if seconds <? 86400 then
    let hours := seconds / 3600 in
    str_of_int hours +:+ " hour" +:+ (if negb (hours =? 1) then "s" else EmptyString)
  else
    let days := seconds / 86400 in
    str_of_int days +:+ " day" +:+ (if negb (days =? 1) then "s" else EmptyString).

(** ** Exceptions, requests, effects *)

(** [ClientError] stands for botocore's [ClientError] and its subclasses;
    [OtherException] for any other class below [Exception]. *)
Inductive exn_class : Type :=
| ClientError
| AttributeError
| ValueError
| OtherException (name : string).

(** An exception object: its class and [str(e)]. *)
Record exn : Type := Exn { exn_type : exn_class; exn_str : string }.

(** [except ClientError] *)
Definition is_ClientError (e : exn) : bool :=
  match exn_type e with ClientError => true | _ => false end.

(** [except Exception] *)
Definition is_Exception (e : exn) : bool := true.

(** The dict the handler returns. *)
Record response : Type := { statusCode : Z; body : string }.

(** Arguments of [s3_client.generate_presigned_url]. *)
Record presign_request : Type :=
  { ClientMethod : string; Bucket : json; Key : json; ExpiresIn : Z }.

(** One member of [Entries] of [eventbridge_client.put_events]. *)
Record put_events_entry : Type :=
  { Source : string; DetailType : string; Detail : string; EventBusName : string }.

(** What a client call answered. *)
Inductive answer (A : Type) : Type :=
| Answered (a : A)
| Failed (e : exn).
Arguments Answered {A} a.
Arguments Failed {A} e.

Inductive level : Type := INFO | ERROR.

Inductive effect : Type :=
| Logged (lvl : level) (msg : string)
| GeneratePresignedUrl (req : presign_request) (ans : answer string)
| PutEvents (entries : list put_events_entry) (ans : answer json).

Definition trace : Type := list effect.

(** Library functions the handler calls and this repository does not define:
    [json.dumps], [repr], and [int] on a [str] ([None] for [ValueError]). *)
Record Runtime : Type :=
  { json_dumps : json -> string;
    repr : json -> string;
    int_of_str : string -> option Z }.

(** What one invocation runs against. *)
Record World : Type :=
  { os_environ : gmap string string;
    s3_generate_presigned_url : presign_request -> answer string;
    eventbridge_put_events : list put_events_entry -> answer json;
    utcnow_isoformat : string }.

(** The invocation context; the handler never reads it. *)
Definition LambdaContext : Type := unit.

(** ** Statements: normal completion, [return], [raise] *)

Inductive outcome (A : Type) : Type :=
| Normal (a : A)
| Returns (r : response)
| Raises (e : exn).
Arguments Normal {A} a.
Arguments Returns {A} r.
Arguments Raises {A} e.

Definition M (A : Type) : Type := outcome A * trace.

#[global] Instance M_ret : MRet M := fun A a => (Normal a, []).

#[global] Instance M_bind : MBind M := fun A B f m =>
  match m with
  | (Normal a, t) => let '(o, t') := f a in (o, (t ++ t')%list)
  | (Returns r, t) => (Returns r, t)
  | (Raises e, t) => (Raises e, t)
  end.

Definition return_ {A : Type} (r : response) : M A := (Returns r, []).
Definition raise {A : Type} (e : exn) : M A := (Raises e, []).
Definition emit (x : effect) : M unit := (Normal (), [x]).

(** [try: body except <class> as e: handler e] *)
Definition try_except {A : Type} (body : M A) (class : exn -> bool)
    (handler : exn -> M A) : M A :=
  match body with
  | (Raises e, t) =>
      if class e then let '(o, t') := handler e in (o, (t ++ t')%list) else (Raises e, t)
  | done => done
  end.

Notation "'try' body 'except' class 'as' e 'then' handler" :=
  (try_except body class (fun e => handler))
  (at level 10, e name, body at level 200, handler at level 200).

(** How a call of a function whose every path returns or raises ends. *)
Inductive completion : Type :=
| Returned (r : response)
| Propagated (e : exn).

Definition def (body : M Empty_set) : completion * trace :=
  match body with
  | (Normal a, _) => match a with end
  | (Returns r, t) => (Returned r, t)
  | (Raises e, t) => (Propagated e, t)
  end.

(** ** lambda_handler (source lines 16-111) *)

Section Handler.
Variable py : Runtime.
Variable w : World.

Definition logger_info (msg : string) : M unit := emit (Logged INFO msg).
Definition logger_error (msg : string) : M unit := emit (Logged ERROR msg).

(** [obj.get(key, default)]: only a dict has the method. *)
Definition get (obj : json) (key : string) (default : json) : M json :=
  match obj with
  | JDict d => mret (match assoc key d with Some v => v | None => default end)
  | _ => raise (Exn AttributeError
                  ("'" +:+ type_name obj +:+ "' object has no attribute 'get'"))
  end.

(** [os.environ.get(key, default)] with a [str] default. *)
Definition environ_get (key default : string) : string :=
  match os_environ w !! key with Some s => s | None => default end.

(** [int(s)] for a [str]. *)
Definition int_ (s : string) : M Z :=
  match int_of_str py s with
  | Some z => mret z
  | None => raise (Exn ValueError
              ("invalid literal for int() with base 10: " +:+ repr py (JStr s)))
  end.

(** A value inside an f-string: [format(v, '')]. *)
Definition fmt (v : json) : string :=
  match v with JStr s => s | _ => repr py v end.

Definition generate_presigned_url (req : presign_request) : M string :=
  match s3_generate_presigned_url w req with
  | Answered url => (Normal url, [GeneratePresignedUrl req (Answered url)])
  | Failed e => (Raises e, [GeneratePresignedUrl req (Failed e)])
  end.

Definition put_events (entries : list put_events_entry) : M json :=
  match eventbridge_put_events w entries with
  | Answered r => (Normal r, [PutEvents entries (Answered r)])
  | Failed e => (Raises e, [PutEvents entries (Failed e)])
  end.

(** The suite of the outer [try] statement (lines 32-104). *)
Definition try_suite (event : json) : M Empty_set :=
  logger_info ("Received event: " +:+ json_dumps py event);;
  bucket_name ← (detail ← get event "detail" (JDict []);
                 bucket ← get detail "bucket" (JDict []);
                 get bucket "name" JNull);
  object_key ← (detail ← get event "detail" (JDict []);
                object ← get detail "object" (JDict []);
                get object "key" JNull);
  (if negb (truthy bucket_name) || negb (truthy object_key) then
     logger_error "Failed to extract bucket name or object key from event";;
     return_ {| statusCode := 400;
                body := json_dumps py (JStr "Invalid event structure") |}
   else mret ());;
  expiration_seconds ← match os_environ w !! "URL_EXPIRATION_SECONDS" with
                       | Some s => int_ s
                       | None => mret 86400
                       end;
  let expiration_text := format_expiration_time expiration_seconds in
  presigned_url ←
    (try (
       presigned_url ← generate_presigned_url
         {| ClientMethod := "get_object";
            Bucket := bucket_name;
            Key := object_key;
            ExpiresIn := expiration_seconds |};
       logger_info ("Generated pre-signed URL for " +:+ fmt bucket_name
                    +:+ "/" +:+ fmt object_key);;
       mret presigned_url)
     except is_ClientError as e then
       logger_error ("Failed to generate pre-signed URL: " +:+ exn_str e);;
       return_ {| statusCode := 500;
                  body := json_dumps py (JStr "Error generating pre-signed URL") |});
  let payload := JDict [ ("fileName", object_key);
                         ("fileUrl", JStr presigned_url);
                         ("bucket", bucket_name);
                         ("expirationTime", JStr expiration_text);
                         ("timestamp", JStr (utcnow_isoformat w)) ] in
  let event_source := environ_get "EVENT_SOURCE" "s3-link-generator" in
  let detail_type := environ_get "EVENT_DETAIL_TYPE" "file-link-generated" in
  let event_bus_name := environ_get "EVENT_BUS_NAME" "default" in
  (try (
     response ← put_events
       [ {| Source := event_source;
            DetailType := detail_type;
            Detail := json_dumps py payload;
            EventBusName := event_bus_name |} ];
     logger_info ("Published event to EventBridge: " +:+ fmt response))
   except is_ClientError as e then
     logger_error ("Failed to publish event to EventBridge: " +:+ exn_str e);;
     return_ {| statusCode := 500;
                body := json_dumps py (JStr "Error publishing event to EventBridge") |});;
  return_ {| statusCode := 200;
             body := json_dumps py
               (JStr "Successfully generated pre-signed URL and published event") |}.

Definition lambda_handler (event : json) (context : LambdaContext)
    : completion * trace :=
  def (
    try try_suite event
    except is_Exception as e then
      logger_error ("Unexpected error: " +:+ exn_str e);;
      return_ {| statusCode := 500;
                 body := json_dumps py (JStr ("Unexpected error: " +:+ exn_str e)) |}).

End Handler.

(** ** A concrete runtime and concrete worlds, for closed examples *)

Module Demo.

Definition dquote : string := String (Ascii.ascii_of_nat 34) EmptyString.

Definition quote (s : string) : string := dquote +:+ s +:+ dquote.

Definition join (sep : string) (l : list string) : string :=
  match l with
  | [] => EmptyString
  | x :: l' => fold_left (fun acc y => acc +:+ sep +:+ y) l' x
  end.

(** JSON text of a document whose strings need no escaping; a float is
    rendered by its class only. *)
Fixpoint dumps (v : json) : string :=
  match v with
  | JNull => "null"
  | JBool b => if b then "true" else "false"
  | JInt z => str_of_int z
  | JFloat f => match f with
                | S754_nan => "NaN"
                | S754_infinity s => if s then "-Infinity" else "Infinity"
                | S754_zero s => if s then "-0.0" else "0.0"
                | S754_finite _ _ _ => "<float>"
                end
  | JStr s => quote s
  | JList l => "[" +:+ join ", " (map dumps l) +:+ "]"
  | JDict d => "{" +:+ join ", " (map (fun kv => quote (fst kv) +:+ ": " +:+ dumps (snd kv)) d) +:+ "}"
  end.

(** [repr] of such a document. *)
Fixpoint py_repr (v : json) : string :=
  match v with
  | JNull => "None"
  | JBool b => if b then "True" else "False"
  | JInt z => str_of_int z
  | JFloat f => match f with
                | S754_nan => "nan"
                | S754_infinity s => if s then "-inf" else "inf"
                | S754_zero s => if s then "-0.0" else "0.0"
                | S754_finite _ _ _ => "<float>"
                end
  | JStr s => "'" +:+ s +:+ "'"
  | JList l => "[" +:+ join ", " (map py_repr l) +:+ "]"
  | JDict d => "{" +:+ join ", " (map (fun kv => "'" +:+ fst kv +:+ "': " +:+ py_repr (snd kv)) d) +:+ "}"
  end.

(** [int] on ASCII text: white space around, an optional sign, then decimal
    digits, single underscores allowed between two digits. *)
Definition is_space (c : Ascii.ascii) : bool :=
  let n := Z.of_nat (Ascii.nat_of_ascii c) in
  ((9 <=? n) && (n <=? 13)) || ((28 <=? n) && (n <=? 32)).

Definition digit_value (c : Ascii.ascii) : option Z :=
  let n := Z.of_nat (Ascii.nat_of_ascii c) in
  if (48 <=? n) && (n <=? 57) then Some (n - 48) else None.

Fixpoint drop_spaces (l : list Ascii.ascii) : list Ascii.ascii :=
  match l with
  | c :: l' => if is_space c then drop_spaces l' else l
  | [] => []
  end.

Definition strip (l : list Ascii.ascii) : list Ascii.ascii :=
  rev (drop_spaces (rev (drop_spaces l))).

Fixpoint digits (l : list Ascii.ascii) (acc : Z) (after_digit : bool) : option Z :=
  match l with
  | [] => if after_digit then Some acc else None
  | c :: l' =>
      match digit_value c with
      | Some d => digits l' (10 * acc + d) true
      | None =>
          if Ascii.eqb c "_"%char && after_digit then digits l' acc false else None
      end
  end.

Definition parse_int (s : string) : option Z :=
  match strip (String.list_ascii_of_string s) with
  | c :: l =>
      if Ascii.eqb c "-"%char then option_map Z.opp (digits l 0 false)
      else if Ascii.eqb c "+"%char then digits l 0 false
      else digits (c :: l) 0 false
  | [] => None
  end.

Definition runtime : Runtime :=
  {| json_dumps := dumps; repr := py_repr; int_of_str := parse_int |}.

Definition plain (v : json) : string :=
  match v with JStr s => s | _ => py_repr v end.

Definition signed (req : presign_request) : string :=
  "https://s3.example/" +:+ plain (Bucket req) +:+ "/" +:+ plain (Key req)
  +:+ "?X-Amz-Expires=" +:+ str_of_int (ExpiresIn req).

Definition accepted : json :=
  JDict [("FailedEntryCount", JInt 0); ("Entries", JList [JDict [("EventId", JStr "e-1")]])].


Definition no_endpoint : exn :=
  Exn (OtherException "EndpointConnectionError") "Could not connect to the endpoint URL".

(** Default configuration, both services answer. *)
Definition world_ok : World :=
  {| os_environ := ∅;
     s3_generate_presigned_url := fun req => Answered (signed req);
     eventbridge_put_events := fun _ => Answered accepted;
     utcnow_isoformat := "2024-01-01T00:00:00" |}.

Definition world_with (env : gmap string string)
    (sign : answer string) (publish : answer json) : World :=
  {| os_environ := env;
     s3_generate_presigned_url := fun _ => sign;
     eventbridge_put_events := fun _ => publish;
     utcnow_isoformat := "2024-01-01T00:00:00" |}.

Definition notification (bucket key : string) : json :=
  JDict [("detail", JDict [("bucket", JDict [("name", JStr bucket)]);
                           ("object", JDict [("key", JStr key)])])].

End Demo.

(** ** Vocabulary of the specification *)

(** The member of a document at a path of keys; [None] when a key is absent
    or the path runs into something that is not an object. *)
Fixpoint member (path : list string) (v : json) : option json :=
  match path with
  | [] => Some v
  | k :: path' =>
      match v with
      | JDict d => match assoc k d with
                   | Some v' => member path' v'
                   | None => None
                   end
      | _ => None
      end
  end.

(** [bucket.name] and [object.key] of a notification. *)
Definition bucket_name_of (event : json) : option json :=
  member ["detail"; "bucket"; "name"] event.
Definition object_key_of (event : json) : option json :=
  member ["detail"; "object"; "key"] event.

(** Both fields present and non-empty. *)
Definition valid_notification (event bucket key : json) : Prop :=
  bucket_name_of event = Some bucket /\ object_key_of event = Some key /\
  truthy bucket = true /\ truthy key = true.

(** A field is missing or empty. *)
Definition missing_or_empty (field : option json) : bool :=
  match field with
  | None => true
  | Some v => negb (truthy v)
  end.

(** Every level of the notification above the two fields is, where present,
    an object: the shape [{"detail": {"bucket": {..}, "object": {..}}}]. *)
Definition object_or_absent (field : option json) : bool :=
  match field with
  | None | Some (JDict _) => true
  | Some _ => false
  end.

Definition well_shaped (event : json) : bool :=
  match event with
  | JDict _ =>
      object_or_absent (member ["detail"] event)
      && object_or_absent (member ["detail"; "bucket"] event)
      && object_or_absent (member ["detail"; "object"] event)
  | _ => false
  end.

(** The client calls of a trace, in order. *)
Definition is_call (x : effect) : bool :=
  match x with
  | Logged _ _ => false
  | GeneratePresignedUrl _ _ | PutEvents _ _ => true
  end.

Definition service_calls (t : trace) : list effect := List.filter is_call t.

Fixpoint presign_calls (t : trace) : list (presign_request * answer string) :=
  match t with
  | [] => []
  | GeneratePresignedUrl req ans :: t' => (req, ans) :: presign_calls t'
  | _ :: t' => presign_calls t'
  end.

Fixpoint put_events_calls (t : trace) : list (list put_events_entry * answer json) :=
  match t with
  | [] => []
  | PutEvents entries ans :: t' => (entries, ans) :: put_events_calls t'
  | _ :: t' => put_events_calls t'
  end.

(** The handler's answers. *)
Definition fault_response (py : Runtime) (e : exn) : response :=
  {| statusCode := 500;
     body := json_dumps py (JStr ("Unexpected error: " +:+ exn_str e)) |}.

Definition signing_error_response (py : Runtime) : response :=
  {| statusCode := 500;
     body := json_dumps py (JStr "Error generating pre-signed URL") |}.

Definition publish_error_response (py : Runtime) : response :=
  {| statusCode := 500;
     body := json_dumps py (JStr "Error publishing event to EventBridge") |}.

(** The notification of the end-to-end scenario and three failing worlds. *)
Module Instances.
Import Demo.

Definition event : json := notification "my-bucket" "report.pdf".
Definition bucket : json := JStr "my-bucket".
Definition key : json := JStr "report.pdf".

Definition request (seconds : Z) : presign_request :=
  {| ClientMethod := "get_object"; Bucket := bucket; Key := key;
     ExpiresIn := seconds |}.

Definition entry (seconds : Z) (url : string) : put_events_entry :=
  {| Source := "s3-link-generator";
     DetailType := "file-link-generated";
     Detail := dumps (JDict [ ("fileName", key);
                              ("fileUrl", JStr url);
                              ("bucket", bucket);
                              ("expirationTime", JStr (format_expiration_time seconds));
                              ("timestamp", JStr "2024-01-01T00:00:00") ]);
     EventBusName := "default" |}.


(** Signing answers, the bus cannot be reached. *)
Definition world_unreachable : World :=
  world_with ∅ (Answered "https://s3.example/signed") (Failed no_endpoint).


End Instances.

(** An event whose [bucket] is the bare bucket name instead of an object
    with a [name]. *)
Definition bare_bucket_event : json :=
  JDict [("detail", JDict [("bucket", JStr "my-bucket");
                           ("object", JDict [("key", JStr "report.pdf")])])].

(** Worlds with [URL_EXPIRATION_SECONDS] set, and notifications that lack a
    field or the shape. *)
Module Configured.
Import Demo.

(** The variable holds a label instead of a number. *)
Definition world_mislabelled : World :=
  world_with {[ "URL_EXPIRATION_SECONDS" := "1 day" ]}
    (Answered "https://s3.example/signed") (Answered accepted).

(** The variable holds a negative number. *)
Definition world_negative : World :=
  world_with {[ "URL_EXPIRATION_SECONDS" := "-5" ]}
    (Answered "https://s3.example/signed") (Answered accepted).

(** The bucket name is the empty string. *)
Definition unnamed_bucket_event : json := notification EmptyString "report.pdf".

(** [detail] is null. *)
Definition null_detail_event : json := JDict [("detail", JNull)].

End Configured.

(** ** The duration formatter *)

Example format_expiration_time_zero : format_expiration_time 0 = "0 seconds".
Proof. reflexivity. Qed.

Example format_expiration_time_one : format_expiration_time 1 = "1 seconds".
Proof. reflexivity. Qed.

Example format_expiration_time_last_hour :
  format_expiration_time 86399 = "23 hours".
Proof. reflexivity. Qed.

Lemma format_expiration_time_seconds n :
  n < 60 -> format_expiration_time n = str_of_int n +:+ " seconds".
Proof.
  intros H. unfold format_expiration_time.
  destruct (Z.ltb_spec n 60) as [_|Hge]; [reflexivity | lia].
Qed.

Lemma format_expiration_time_minutes n :
  60 <= n < 3600 ->
  format_expiration_time n =
    str_of_int (n / 60) +:+ (if n / 60 =? 1 then " minute" else " minutes").
Proof.
  intros [Hlo Hhi]. unfold format_expiration_time.
  destruct (Z.ltb_spec n 60); [lia|].
  destruct (Z.ltb_spec n 3600); [|lia].
  cbv zeta. destruct (n / 60 =? 1); reflexivity.
Qed.

Lemma format_expiration_time_hours n :
  3600 <= n < 86400 ->
  format_expiration_time n =
    str_of_int (n / 3600) +:+ (if n / 3600 =? 1 then " hour" else " hours").
Proof.
  intros [Hlo Hhi]. unfold format_expiration_time.
  destruct (Z.ltb_spec n 60); [lia|].
  destruct (Z.ltb_spec n 3600); [lia|].
  destruct (Z.ltb_spec n 86400); [|lia].
  cbv zeta. destruct (n / 3600 =? 1); reflexivity.
Qed.

Lemma format_expiration_time_days n :
  86400 <= n ->
  format_expiration_time n =
    str_of_int (n / 86400) +:+ (if n / 86400 =? 1 then " day" else " days").
Proof.
  intros Hlo. unfold format_expiration_time.
  destruct (Z.ltb_spec n 60); [lia|].
  destruct (Z.ltb_spec n 3600); [lia|].
  destruct (Z.ltb_spec n 86400); [lia|].
  cbv zeta. destruct (n / 86400 =? 1); reflexivity.
Qed.

(** C5: for a non-negative [n] the label is [n] with the word "seconds" below
    a minute, and otherwise the floor quotient by 60, 3600 or 86400 followed
    by one unit word, singular exactly when the quotient is 1; the five
    labels the specification lists come out as listed. *)
Theorem format_expiration_time_cases :
  (forall n, 0 <= n ->
     (n < 60 -> format_expiration_time n = str_of_int n +:+ " seconds") /\
     (60 <= n < 3600 ->
        format_expiration_time n =
          str_of_int (n / 60) +:+ (if n / 60 =? 1 then " minute" else " minutes")) /\
     (3600 <= n < 86400 ->
        format_expiration_time n =
          str_of_int (n / 3600) +:+ (if n / 3600 =? 1 then " hour" else " hours")) /\
     (86400 <= n ->
        format_expiration_time n =
          str_of_int (n / 86400) +:+ (if n / 86400 =? 1 then " day" else " days"))) /\
  format_expiration_time 30 = "30 seconds" /\
  format_expiration_time 90 = "1 minute" /\
  format_expiration_time 7200 = "2 hours" /\
  format_expiration_time 86400 = "1 day" /\
  format_expiration_time 172800 = "2 days".
Proof.
  split.
  - intros n _. repeat split.
    + apply format_expiration_time_seconds.
    + apply format_expiration_time_minutes.
    + apply format_expiration_time_hours.
    + apply format_expiration_time_days.
  - repeat split; reflexivity.
Qed.

Lemma format_expiration_time_cases_witness :
  0 <= 5400 /\ 3600 <= 5400 < 86400 /\ format_expiration_time 5400 = "1 hour".
Proof.
  assert (H0 : 0 <= 5400) by lia.
  assert (H1 : 3600 <= 5400 < 86400) by lia.
  split; [exact H0 | split; [exact H1 |]].
  exact (proj1 (proj2 (proj2 (proj1 format_expiration_time_cases 5400 H0))) H1).
Defined.

(** C8: two evaluations of the formatter at the same number of seconds give
    the same label. *)
Theorem format_expiration_time_deterministic :
  forall n s1 s2,
    format_expiration_time n = s1 -> format_expiration_time n = s2 -> s1 = s2.
Proof.
  intros n s1 s2 H1 H2. rewrite <- H1, <- H2. reflexivity.
Qed.

Lemma format_expiration_time_deterministic_witness :
  format_expiration_time 86400 = "1 day" /\
  format_expiration_time 86400 = format_expiration_time (24 * 3600) /\
  "1 day" = format_expiration_time (24 * 3600).
Proof.
  assert (H1 : format_expiration_time 86400 = "1 day") by reflexivity.
  assert (H2 : format_expiration_time 86400 = format_expiration_time (24 * 3600))
    by reflexivity.
  split; [exact H1 | split; [exact H2 |]].
  exact (format_expiration_time_deterministic 86400 _ _ H1 H2).
Defined.

(** C9: the formatter does not test the sign: every integer below 60, the
    negative ones included, is printed followed by the word "seconds". *)
Theorem format_expiration_time_below_minute :
  forall n, n < 60 -> format_expiration_time n = str_of_int n +:+ " seconds".
Proof.
  exact format_expiration_time_seconds.
Qed.

Lemma format_expiration_time_below_minute_witness :
  -5 < 60 /\ format_expiration_time (-5) = "-5 seconds".
Proof.
  split; [lia |].
  apply (format_expiration_time_below_minute (-5)); lia.
Defined.

(** *** Further properties of the formatter *)

Lemma quotient_one n u : 0 < u -> u <= n < 2 * u -> n / u = 1.
Proof.
  intros Hu H. symmetry. apply (Z.div_unique n u 1 (n - u)); lia.
Qed.

(** X14: Throughout the first minute, hour and day of their ranges the label is
    the singular one: the remainder is dropped, so 119 seconds read
    "1 minute". *)
Theorem format_expiration_time_singular n :
  (60 <= n < 120 -> format_expiration_time n = "1 minute") /\
  (3600 <= n < 7200 -> format_expiration_time n = "1 hour") /\
  (86400 <= n < 172800 -> format_expiration_time n = "1 day").
Proof.
  repeat split; intros H.
  - rewrite format_expiration_time_minutes by lia.
    rewrite (quotient_one n 60) by lia. reflexivity.
  - rewrite format_expiration_time_hours by lia.
    rewrite (quotient_one n 3600) by lia. reflexivity.
  - rewrite format_expiration_time_days by lia.
    rewrite (quotient_one n 86400) by lia. reflexivity.
Qed.

(** X15: From a minute on, the number in the label is at least 1; it is at most
    59 in a label of minutes and at most 23 in a label of hours, and a label
    of days never overstates the duration. *)
Theorem format_expiration_time_count_bounds n :
  (60 <= n < 3600 ->
     exists q, 1 <= q <= 59 /\
       format_expiration_time n =
         str_of_int q +:+ (if q =? 1 then " minute" else " minutes")) /\
  (3600 <= n < 86400 ->
     exists q, 1 <= q <= 23 /\
       format_expiration_time n =
         str_of_int q +:+ (if q =? 1 then " hour" else " hours")) /\
  (86400 <= n ->
     exists q, 1 <= q /\ 86400 * q <= n /\
       format_expiration_time n =
         str_of_int q +:+ (if q =? 1 then " day" else " days")).
Proof.
  repeat split; intros H.
  - exists (n / 60). split; [|apply format_expiration_time_minutes; lia].
    split; [apply Z.div_le_lower_bound; lia|].
    assert (n / 60 < 60) by (apply Z.div_lt_upper_bound; lia). lia.
  - exists (n / 3600). split; [|apply format_expiration_time_hours; lia].
    split; [apply Z.div_le_lower_bound; lia|].
    assert (n / 3600 < 24) by (apply Z.div_lt_upper_bound; lia). lia.
  - exists (n / 86400). split; [apply Z.div_le_lower_bound; lia|].
    split; [apply Z.mul_div_le; lia | apply format_expiration_time_days; lia].
Qed.

(** X16: The label only depends on the whole units: rounding a duration down to
    a multiple of its unit leaves the label as it is. *)
Theorem format_expiration_time_whole_units n :
  (60 <= n < 3600 ->
     format_expiration_time (60 * (n / 60)) = format_expiration_time n) /\
  (3600 <= n < 86400 ->
     format_expiration_time (3600 * (n / 3600)) = format_expiration_time n) /\
  (86400 <= n ->
     format_expiration_time (86400 * (n / 86400)) = format_expiration_time n).
Proof.
  repeat split; intros H.
  - assert (1 <= n / 60) by (apply Z.div_le_lower_bound; lia).
    assert (60 * (n / 60) <= n) by (apply Z.mul_div_le; lia).
    rewrite !format_expiration_time_minutes by lia.
    rewrite (Z.mul_comm 60), Z.div_mul by lia. reflexivity.
  - assert (1 <= n / 3600) by (apply Z.div_le_lower_bound; lia).
    assert (3600 * (n / 3600) <= n) by (apply Z.mul_div_le; lia).
    rewrite !format_expiration_time_hours by lia.
    rewrite (Z.mul_comm 3600), Z.div_mul by lia. reflexivity.
  - assert (1 <= n / 86400) by (apply Z.div_le_lower_bound; lia).
    rewrite !format_expiration_time_days by lia.
    rewrite (Z.mul_comm 86400), Z.div_mul by lia. reflexivity.
Qed.

(** ** The handler *)

Section Properties.
Variable py : Runtime.
Variable w : World.

(** *** The look-ups of the two fields *)

Lemma get_cases obj key default :
  (exists v, get obj key default = (Normal v, [])) \/
  (exists e, get obj key default = (Raises e, [])).
Proof.
  destruct obj; simpl; eauto.
Qed.

Lemma lookup_cases k1 k2 k3 event :
  (exists v, (detail ← get event k1 (JDict []);
              x ← get detail k2 (JDict []);
              get x k3 JNull) = (Normal v, [])) \/
  (exists e, (detail ← get event k1 (JDict []);
              x ← get detail k2 (JDict []);
              get x k3 JNull) = (Raises e, [])).
Proof.
  destruct (get_cases event k1 (JDict [])) as [[v1 ->]|[e ->]]; [|right; eauto].
  cbn. destruct (get_cases v1 k2 (JDict [])) as [[v2 ->]|[e ->]]; [|right; eauto].
  cbn. destruct (get_cases v2 k3 JNull) as [[v3 ->]|[e ->]]; eauto.
Qed.

(** A field that is there is what the look-up finds. *)
Lemma lookup_member k1 k2 k3 event v :
  member [k1; k2; k3] event = Some v ->
  (detail ← get event k1 (JDict []);
   x ← get detail k2 (JDict []);
   get x k3 JNull) = (Normal v, []).
Proof.
  intros H. destruct event; try discriminate. simpl in H. simpl.
  destruct (assoc k1 d) as [[]|]; try discriminate. simpl.
  destruct (assoc k2 d0) as [[]|]; try discriminate. simpl.
  destruct (assoc k3 d1); try discriminate. congruence.
Qed.

(** A look-up that finds something else than the field found [None]. *)
Lemma lookup_absent k1 k2 k3 event v :
  (detail ← get event k1 (JDict []);
   x ← get detail k2 (JDict []);
   get x k3 JNull) = (Normal v, []) ->
  member [k1; k2; k3] event = Some v \/
  (member [k1; k2; k3] event = None /\ v = JNull).
Proof.
  destruct event; try discriminate. simpl.
  destruct (assoc k1 d) as [[]|]; simpl; try discriminate.
  - destruct (assoc k2 d0) as [[]|]; simpl; try discriminate.
    + destruct (assoc k3 d1); simpl; intros [= <-]; auto.
    + intros [= <-]; auto.
  - intros [= <-]; auto.
Qed.

Lemma lookup_missing_or_empty k1 k2 k3 event v :
  (detail ← get event k1 (JDict []);
   x ← get detail k2 (JDict []);
   get x k3 JNull) = (Normal v, []) ->
  missing_or_empty (member [k1; k2; k3] event) = negb (truthy v).
Proof.
  intros H. destruct (lookup_absent _ _ _ _ _ H) as [-> | [-> ->]]; reflexivity.
Qed.

(** On a well-shaped event both look-ups go through. *)
Lemma lookup_well_shaped event :
  well_shaped event = true ->
  (exists v, (detail ← get event "detail" (JDict []);
              x ← get detail "bucket" (JDict []);
              get x "name" JNull) = (Normal v, [])) /\
  (exists v, (detail ← get event "detail" (JDict []);
              x ← get detail "object" (JDict []);
              get x "key" JNull) = (Normal v, [])).
Proof.
  destruct event; try discriminate. simpl.
  destruct (assoc "detail" d) as [[]|]; simpl; try discriminate; [|eauto].
  destruct (assoc "bucket" d0) as [[]|]; simpl; try discriminate;
    destruct (assoc "object" d0) as [[]|]; simpl; try discriminate; eauto.
Qed.

(** *** Running the handler *)

Ltac step := cbn -[format_expiration_time String.append].

(* From the configuration look-up to the end. *)
Ltac run_services :=
  step;
  match goal with
  | |- context [os_environ w !! ?k] =>
      destruct (os_environ w !! k) as [?s|] eqn:?Henv;
      [unfold int_; destruct (int_of_str py _) as [?n|] eqn:?Hint|]
  end; step;
  try (unfold generate_presigned_url;
       destruct (s3_generate_presigned_url w _) as [?url|?e] eqn:?Hsign; step;
       [unfold put_events;
        destruct (eventbridge_put_events w _) as [?ack|?e] eqn:?Hpublish; step;
        [|destruct (is_ClientError _) eqn:?Hclass; step]
       |destruct (is_ClientError _) eqn:?Hclass; step]).

(* A valid notification: one goal per path. *)
Ltac run_valid H :=
  let Hb := fresh "Hb" in let Hk := fresh "Hk" in
  let Tb := fresh "Tb" in let Tk := fresh "Tk" in
  destruct H as (Hb & Hk & Tb & Tk);
  unfold lambda_handler, try_suite;
  rewrite (lookup_member _ _ _ _ _ Hb), (lookup_member _ _ _ _ _ Hk);
  step; rewrite Tb, Tk; run_services.

(* Any event: one goal per path. *)
Ltac run_any event :=
  unfold lambda_handler, try_suite;
  destruct (lookup_cases "detail" "bucket" "name" event) as [[vb Hvb]|[eb Hvb]];
  rewrite Hvb;
  [destruct (lookup_cases "detail" "object" "key" event) as [[vk Hvk]|[ek Hvk]];
   rewrite Hvk;
   [step; destruct (truthy vb) eqn:Tb;
    [destruct (truthy vk) eqn:Tk; [run_services | step] | step]
   | step]
  | step].

(* Which member of a computed trace a hypothesis speaks of. *)
Ltac pick_effect :=
  repeat match goal with
  | H : In _ _ |- _ => simpl in H
  | H : _ \/ _ |- _ => destruct H as [H|H]
  | H : False |- _ => destruct H
  | H : @eq effect _ _ |- _ => first [discriminate H | inversion H; subst; clear H]
  end.

(** C1: on a valid notification, when the validity resolves to [n] seconds,
    the Object Store answers the signing request with [url] and the Event Bus
    answers the publish request, the handler returns status 200 and the run
    made the signing call once and the publish call once, of one entry, whose
    detail is the serialised payload with [fileName] the object key, [bucket]
    the bucket name and [fileUrl] the URL that was answered. *)
Theorem success_publishes_one_event event bucket key ctx n url ack :
  valid_notification event bucket key ->
  match os_environ w !! "URL_EXPIRATION_SECONDS" with
  | Some s => int_of_str py s
  | None => Some 86400
  end = Some n ->
  s3_generate_presigned_url w
    {| ClientMethod := "get_object"; Bucket := bucket; Key := key; ExpiresIn := n |}
    = Answered url ->
  eventbridge_put_events w
    [ {| Source := environ_get w "EVENT_SOURCE" "s3-link-generator";
         DetailType := environ_get w "EVENT_DETAIL_TYPE" "file-link-generated";
         Detail := json_dumps py
                     (JDict [ ("fileName", key);
                              ("fileUrl", JStr url);
                              ("bucket", bucket);
                              ("expirationTime", JStr (format_expiration_time n));
                              ("timestamp", JStr (utcnow_isoformat w)) ]);
         EventBusName := environ_get w "EVENT_BUS_NAME" "default" |} ]
    = Answered ack ->
  exists entry payload,
    (lambda_handler py w event ctx).1 =
      Returned {| statusCode := 200;
                  body := json_dumps py
                    (JStr "Successfully generated pre-signed URL and published event") |} /\
    presign_calls (lambda_handler py w event ctx).2 =
      [({| ClientMethod := "get_object"; Bucket := bucket; Key := key;
           ExpiresIn := n |}, Answered url)] /\
    put_events_calls (lambda_handler py w event ctx).2 = [([entry], Answered ack)] /\
    Detail entry = json_dumps py (JDict payload) /\
    assoc "fileName" payload = Some key /\
    assoc "bucket" payload = Some bucket /\
    assoc "fileUrl" payload = Some (JStr url).
Proof.
  intros (Hb & Hk & Tb & Tk) Hn Hsign Hpublish.
  unfold lambda_handler, try_suite.
  rewrite (lookup_member _ _ _ _ _ Hb), (lookup_member _ _ _ _ _ Hk).
  step. rewrite Tb, Tk. step.
  assert (Hrun : match os_environ w !! "URL_EXPIRATION_SECONDS" with
                 | Some s => int_ py s
                 | None => mret 86400
                 end = (Normal n, [])).
  { destruct (os_environ w !! "URL_EXPIRATION_SECONDS") as [s|].
    - unfold int_. rewrite Hn. reflexivity.
    - injection Hn as <-. reflexivity. }
  rewrite Hrun. step.
  unfold generate_presigned_url. rewrite Hsign. step.
  unfold put_events. rewrite Hpublish. step.
  do 2 eexists. repeat split; reflexivity.
Qed.



(** C6: with [URL_EXPIRATION_SECONDS] absent from the environment, a valid
    notification makes one signing call, asking for 86400 seconds; when it
    answers, the one entry published has [expirationTime] "1 day". *)
Theorem default_expiration_is_one_day event bucket key ctx :
  os_environ w !! "URL_EXPIRATION_SECONDS" = None ->
  valid_notification event bucket key ->
  exists ans,
    presign_calls (lambda_handler py w event ctx).2 =
      [({| ClientMethod := "get_object"; Bucket := bucket; Key := key;
           ExpiresIn := 86400 |}, ans)] /\
    match ans with
    | Failed _ => put_events_calls (lambda_handler py w event ctx).2 = []
    | Answered _ =>
        exists entry payload result,
          put_events_calls (lambda_handler py w event ctx).2 = [([entry], result)] /\
          Detail entry = json_dumps py (JDict payload) /\
          assoc "expirationTime" payload = Some (JStr "1 day")
    end.
Proof.
  intros Hdefault H. run_valid H; try congruence.
  all: eexists; split; [reflexivity|]; cbv beta iota.
  all: try reflexivity.
  all: do 3 eexists; repeat split; reflexivity.
Qed.

(** C7: whatever the event, the call returns a status/body pair with status
    200, 400 or 500 and lets no exception through; an exception leaving the
    suite of the outer [try] becomes the status-500 answer that quotes it,
    after one more log line. *)
Theorem lambda_handler_always_returns event ctx :
  exists r t,
    lambda_handler py w event ctx = (Returned r, t) /\
    (statusCode r = 200 \/ statusCode r = 400 \/ statusCode r = 500) /\
    match try_suite py w event with
    | (Raises e, t0) =>
        r = fault_response py e /\
        t = (t0 ++ [Logged ERROR ("Unexpected error: " +:+ exn_str e)])%list
    | _ => True
    end.
Proof.
  run_any event; do 2 eexists; (split; [reflexivity|]); split; auto.
Qed.


(** *** Notifications that lack a field *)

(** X1: A missing or empty field stops the handler before any client call, and
    the call returns, with status 400 or 500. *)
Lemma invalid_notification_contacts_nothing event ctx :
  missing_or_empty (bucket_name_of event) || missing_or_empty (object_key_of event) = true ->
  exists r t,
    lambda_handler py w event ctx = (Returned r, t) /\
    (statusCode r = 400 \/ statusCode r = 500) /\
    service_calls t = [].
Proof.
  unfold bucket_name_of, object_key_of. intros Hm. run_any event.
  all: try (do 2 eexists; repeat split; auto; fail).
  all: rewrite (lookup_missing_or_empty _ _ _ _ _ Hvb),
         (lookup_missing_or_empty _ _ _ _ _ Hvk), Tb, Tk in Hm; discriminate.
Qed.

(** X2: On a well-shaped event a missing or empty field gives status 400 with
    the message "Invalid event structure", and no client call. *)
Lemma invalid_notification_rejected event ctx :
  well_shaped event = true ->
  missing_or_empty (bucket_name_of event) || missing_or_empty (object_key_of event) = true ->
  exists t,
    lambda_handler py w event ctx =
      (Returned {| statusCode := 400;
                   body := json_dumps py (JStr "Invalid event structure") |}, t) /\
    service_calls t = [].
Proof.
  intros Hshape. destruct (lookup_well_shaped _ Hshape) as [[vb Hvb] [vk Hvk]].
  unfold bucket_name_of, object_key_of.
  rewrite (lookup_missing_or_empty _ _ _ _ _ Hvb), (lookup_missing_or_empty _ _ _ _ _ Hvk).
  unfold lambda_handler, try_suite. rewrite Hvb, Hvk. step.
  intros ->. step. eexists; split; reflexivity.
Qed.

(** C2, at [bare_bucket_event]: the event has no [bucket.name], the look-up
    raises [AttributeError], and the outer handler turns it into status
    500, not 400. *)
Theorem bare_bucket_event_gets_500 ctx :
  bucket_name_of bare_bucket_event = None /\
  missing_or_empty (bucket_name_of bare_bucket_event) = true /\
  well_shaped bare_bucket_event = false /\
  lambda_handler py w bare_bucket_event ctx =
    (Returned {| statusCode := 500;
                 body := json_dumps py
                   (JStr "Unexpected error: 'str' object has no attribute 'get'") |},
     [Logged INFO ("Received event: " +:+ json_dumps py bare_bucket_event);
      Logged ERROR "Unexpected error: 'str' object has no attribute 'get'"]).
Proof.
  repeat split; reflexivity.
Qed.

(** *** Further properties of the handler *)

(** A look-up that found something truthy found the field. *)
Lemma lookup_truthy k1 k2 k3 event v :
  (detail ← get event k1 (JDict []);
   x ← get detail k2 (JDict []);
   get x k3 JNull) = (Normal v, []) ->
  truthy v = true ->
  member [k1; k2; k3] event = Some v.
Proof.
  intros H T. destruct (lookup_absent _ _ _ _ _ H) as [Hm | [_ ->]];
    [exact Hm | discriminate T].
Qed.

(* Keeps a statement about the event out of the way of [step]. *)
Ltac hide P := let V := fresh "V" in let HV := fresh "HV" in remember P as V eqn:HV.

(** X4: Whatever the event, the client calls of a run are none, or one signing
    call that failed, or one signing call that answered followed by one
    publish call of one entry. *)
Theorem client_calls_in_order event ctx :
  service_calls (lambda_handler py w event ctx).2 = [] \/
  (exists req e,
     service_calls (lambda_handler py w event ctx).2 =
       [GeneratePresignedUrl req (Failed e)]) \/
  (exists req url entry ans,
     service_calls (lambda_handler py w event ctx).2 =
       [GeneratePresignedUrl req (Answered url); PutEvents [entry] ans]).
Proof.
  run_any event; eauto 10.
Qed.

(** X5: A signing call is only ever made for a notification whose two fields are
    present and truthy, asks for [get_object], and names exactly these two
    fields. *)
Theorem signing_call_is_for_valid_notification event ctx req ans :
  In (GeneratePresignedUrl req ans) (lambda_handler py w event ctx).2 ->
  ClientMethod req = "get_object" /\
  valid_notification event (Bucket req) (Key req).
Proof.
  hide (valid_notification event). run_any event; intros Hin; pick_effect.
  all: split; [reflexivity|]; cbn [Bucket Key].
  all: repeat split; auto; eapply lookup_truthy; eauto.
Qed.

(* A valid notification with [URL_EXPIRATION_SECONDS] set: up to [int]. *)
Ltac run_configured H Hs :=
  let Hb := fresh "Hb" in let Hk := fresh "Hk" in
  let Tb := fresh "Tb" in let Tk := fresh "Tk" in
  destruct H as (Hb & Hk & Tb & Tk);
  unfold lambda_handler, try_suite;
  rewrite (lookup_member _ _ _ _ _ Hb), (lookup_member _ _ _ _ _ Hk);
  step; rewrite Tb, Tk; step; rewrite Hs; unfold int_.

(* From the signing call to the end. *)
Ltac run_calls :=
  step; unfold generate_presigned_url;
  destruct (s3_generate_presigned_url w _) as [?url|?e] eqn:?Hsign; step;
  [unfold put_events;
   destruct (eventbridge_put_events w _) as [?ack|?e] eqn:?Hpublish; step;
   [|destruct (is_ClientError _) eqn:?Hclass; step]
  |destruct (is_ClientError _) eqn:?Hclass; step].

(** X6: A value of [URL_EXPIRATION_SECONDS] that [int] rejects ends a valid
    notification's run with the status-500 answer quoting the [ValueError],
    before any client call. *)
Theorem malformed_expiration_stops_the_run event bucket key ctx s :
  valid_notification event bucket key ->
  os_environ w !! "URL_EXPIRATION_SECONDS" = Some s ->
  int_of_str py s = None ->
  lambda_handler py w event ctx =
    (Returned (fault_response py
                 (Exn ValueError
                    ("invalid literal for int() with base 10: " +:+ repr py (JStr s)))),
     [ Logged INFO ("Received event: " +:+ json_dumps py event);
       Logged ERROR ("Unexpected error: "
                     +:+ "invalid literal for int() with base 10: " +:+ repr py (JStr s)) ]).
Proof.
  intros H Hs Hp. run_configured H Hs. rewrite Hp. reflexivity.
Qed.

(** X7: Whatever integer [URL_EXPIRATION_SECONDS] holds, zero and negative ones
    included, is asked of the signing call unchanged, and its label is what
    the published payload carries as [expirationTime]. *)
Theorem configured_expiration_is_used event bucket key ctx s n :
  valid_notification event bucket key ->
  os_environ w !! "URL_EXPIRATION_SECONDS" = Some s ->
  int_of_str py s = Some n ->
  exists ans,
    presign_calls (lambda_handler py w event ctx).2 =
      [({| ClientMethod := "get_object"; Bucket := bucket; Key := key;
           ExpiresIn := n |}, ans)] /\
    match ans with
    | Failed _ => put_events_calls (lambda_handler py w event ctx).2 = []
    | Answered _ =>
        exists entry payload result,
          put_events_calls (lambda_handler py w event ctx).2 = [([entry], result)] /\
          Detail entry = json_dumps py (JDict payload) /\
          assoc "expirationTime" payload = Some (JStr (format_expiration_time n))
    end.
Proof.
  intros H Hs Hp. run_configured H Hs. rewrite Hp. run_calls.
  all: eexists; split; [reflexivity|]; cbv beta iota.
  all: try reflexivity.
  all: do 3 eexists; repeat split; reflexivity.
Qed.

(** X8: A published entry is alone in its call and is addressed by the
    environment: [EVENT_SOURCE], [EVENT_DETAIL_TYPE] and [EVENT_BUS_NAME]
    where set, else "s3-link-generator", "file-link-generated" and
    "default". *)
Theorem published_entry_routing event ctx entries ans :
  In (PutEvents entries ans) (lambda_handler py w event ctx).2 ->
  exists entry,
    entries = [entry] /\
    Source entry = default "s3-link-generator" (os_environ w !! "EVENT_SOURCE") /\
    DetailType entry = default "file-link-generated" (os_environ w !! "EVENT_DETAIL_TYPE") /\
    EventBusName entry = default "default" (os_environ w !! "EVENT_BUS_NAME").
Proof.
  run_any event; intros Hin; pick_effect.
  all: eexists; repeat split; reflexivity.
Qed.

(** X9: The detail of a published entry is the serialised dict of five members,
    in this order: the key and the bucket that were signed, the URL the
    signing call answered, the label of the validity that was asked for, and
    the clock's time. *)
Theorem published_payload event ctx entries ans :
  In (PutEvents entries ans) (lambda_handler py w event ctx).2 ->
  exists entry req url,
    entries = [entry] /\
    presign_calls (lambda_handler py w event ctx).2 = [(req, Answered url)] /\
    Detail entry =
      json_dumps py
        (JDict [ ("fileName", Key req);
                 ("fileUrl", JStr url);
                 ("bucket", Bucket req);
                 ("expirationTime", JStr (format_expiration_time (ExpiresIn req)));
                 ("timestamp", JStr (utcnow_isoformat w)) ]).
Proof.
  run_any event; intros Hin; pick_effect.
  all: do 3 eexists; repeat split; reflexivity.
Qed.

(** X10: The handler has five answers and no other. *)
Theorem response_is_one_of_five event ctx :
  exists r,
    (lambda_handler py w event ctx).1 = Returned r /\
    (r = {| statusCode := 200;
            body := json_dumps py
              (JStr "Successfully generated pre-signed URL and published event") |} \/
     r = {| statusCode := 400;
            body := json_dumps py (JStr "Invalid event structure") |} \/
     r = signing_error_response py \/
     r = publish_error_response py \/
     exists e, r = fault_response py e).
Proof.
  run_any event; eexists; (split; [reflexivity|]).
  all: first [ left; reflexivity
             | right; left; reflexivity
             | do 2 right; left; reflexivity
             | do 3 right; left; reflexivity
             | do 4 right; eexists; reflexivity
             | do 4 right; eexists (Exn ValueError _); reflexivity ].
Qed.

(** X11: Status 200 is only returned after a signing call and a publish call that
    both answered. *)
Theorem status_200_means_published event ctx r :
  (lambda_handler py w event ctx).1 = Returned r ->
  statusCode r = 200 ->
  exists req url entry ack,
    service_calls (lambda_handler py w event ctx).2 =
      [GeneratePresignedUrl req (Answered url); PutEvents [entry] (Answered ack)].
Proof.
  run_any event; intros [= <-]; cbn [statusCode]; intros Hs; try discriminate Hs.
  all: do 4 eexists; reflexivity.
Qed.

(** X12: Status 400 is only returned for a notification with a missing or empty
    field, and then without any client call. *)
Theorem status_400_means_invalid event ctx r :
  (lambda_handler py w event ctx).1 = Returned r ->
  statusCode r = 400 ->
  missing_or_empty (bucket_name_of event) || missing_or_empty (object_key_of event) = true /\
  service_calls (lambda_handler py w event ctx).2 = [].
Proof.
  unfold bucket_name_of, object_key_of.
  hide (missing_or_empty (member ["detail"; "bucket"; "name"] event)).
  hide (missing_or_empty (member ["detail"; "object"; "key"] event)).
  run_any event; intros [= <-]; cbn [statusCode]; intros Hs; try discriminate Hs.
  all: subst; split; [|reflexivity].
  all: rewrite (lookup_missing_or_empty _ _ _ _ _ Hvb),
         (lookup_missing_or_empty _ _ _ _ _ Hvk), Tb; try rewrite Tk; reflexivity.
Qed.

(** X13: Every run first logs the event at level INFO; a run that does not return
    status 200 ends with a log line at level ERROR, and a run that returns
    200 logs none at that level. *)
Theorem failures_are_logged event ctx :
  exists r t,
    lambda_handler py w event ctx = (Returned r, t) /\
    head t = Some (Logged INFO ("Received event: " +:+ json_dumps py event)) /\
    if statusCode r =? 200
    then forall msg, ~ In (Logged ERROR msg) t
    else exists msg, last t = Some (Logged ERROR msg).
Proof.
  run_any event; do 2 eexists; (split; [reflexivity|]); (split; [reflexivity|]).
  all: cbn; eauto.
  all: intros msg Hin; pick_effect.
Qed.

(** X3: An event that is not an object, or whose [detail], [bucket] or [object]
    is there and not an object, gets the status-500 answer that quotes the
    [AttributeError] of the look-up, after two log lines and no client call. *)
Theorem malformed_shape_gets_500 event ctx :
  well_shaped event = false ->
  exists v,
    type_name v <> "dict" /\
    lambda_handler py w event ctx =
      (Returned (fault_response py
                   (Exn AttributeError
                      ("'" +:+ type_name v +:+ "' object has no attribute 'get'"))),
       [ Logged INFO ("Received event: " +:+ json_dumps py event);
         Logged ERROR ("Unexpected error: "
                       +:+ "'" +:+ type_name v +:+ "' object has no attribute 'get'") ]).
Proof.
  intros Hshape.
  destruct event as [ | | | | | |d];
    try (eexists; split; [|reflexivity]; discriminate).
  cbn in Hshape. unfold lambda_handler, try_suite. step.
  destruct (assoc "detail" d) as [[ | | | | | |d0]|]; try discriminate Hshape;
    try (eexists; split; [|reflexivity]; discriminate).
  cbn in Hshape. step.
  destruct (assoc "bucket" d0) as [[ | | | | | |d1]|]; try discriminate Hshape;
    try (eexists; split; [|reflexivity]; discriminate).
  all: step; destruct (assoc "object" d0) as [[ | | | | | |d2]|];
    try discriminate Hshape.
  all: eexists; split; [|reflexivity]; discriminate.
Qed.

End Properties.

(** ** Closed instances *)

Lemma demo_event_valid :
  valid_notification Instances.event Instances.bucket Instances.key.
Proof. repeat split; reflexivity. Qed.

(** What the closed examples' [int] accepts and rejects. *)
Example parse_int_accepts :
  Demo.parse_int "3600" = Some 3600 /\ Demo.parse_int "-5" = Some (-5) /\
  Demo.parse_int "+90" = Some 90 /\ Demo.parse_int " 3600 " = Some 3600 /\
  Demo.parse_int "1_000" = Some 1000 /\ Demo.parse_int "007" = Some 7.
Proof. repeat split; reflexivity. Qed.

Example parse_int_rejects :
  Demo.parse_int EmptyString = None /\ Demo.parse_int "-" = None /\
  Demo.parse_int "1 day" = None /\ Demo.parse_int "4.5" = None /\
  Demo.parse_int "1__0" = None /\ Demo.parse_int "_1" = None /\
  Demo.parse_int "1_" = None /\ Demo.parse_int "- 5" = None.
Proof. repeat split; reflexivity. Qed.

(** The end-to-end scenario: default configuration, both services answer. *)
Example end_to_end_default_configuration :
  lambda_handler Demo.runtime Demo.world_ok Instances.event () =
    (Returned {| statusCode := 200;
                 body := Demo.quote
                   "Successfully generated pre-signed URL and published event" |},
     [ Logged INFO ("Received event: " +:+ Demo.dumps Instances.event);
       GeneratePresignedUrl (Instances.request 86400)
         (Answered "https://s3.example/my-bucket/report.pdf?X-Amz-Expires=86400");
       Logged INFO "Generated pre-signed URL for my-bucket/report.pdf";
       PutEvents
         [Instances.entry 86400
            "https://s3.example/my-bucket/report.pdf?X-Amz-Expires=86400"]
         (Answered Demo.accepted);
       Logged INFO
         "Published event to EventBridge: {'FailedEntryCount': 0, 'Entries': [{'EventId': 'e-1'}]}" ]).
Proof. vm_compute. reflexivity. Qed.

(** A malformed [URL_EXPIRATION_SECONDS] ends the run before any call. *)
Example malformed_expiration_contacts_nothing :
  lambda_handler Demo.runtime
    (Demo.world_with {[ "URL_EXPIRATION_SECONDS" := "1 day" ]}
       (Answered "https://s3.example/signed") (Answered Demo.accepted))
    Instances.event () =
    (Returned (fault_response Demo.runtime
                 (Exn ValueError "invalid literal for int() with base 10: '1 day'")),
     [ Logged INFO ("Received event: " +:+ Demo.dumps Instances.event);
       Logged ERROR "Unexpected error: invalid literal for int() with base 10: '1 day'" ]).
Proof. vm_compute. reflexivity. Qed.

Lemma success_publishes_one_event_witness :
  valid_notification Instances.event Instances.bucket Instances.key /\
  exists entry payload,
    (lambda_handler Demo.runtime Demo.world_ok Instances.event ()).1 =
      Returned {| statusCode := 200;
                  body := Demo.dumps
                    (JStr "Successfully generated pre-signed URL and published event") |} /\
    presign_calls (lambda_handler Demo.runtime Demo.world_ok Instances.event ()).2 =
      [(Instances.request 86400,
        Answered "https://s3.example/my-bucket/report.pdf?X-Amz-Expires=86400")] /\
    put_events_calls (lambda_handler Demo.runtime Demo.world_ok Instances.event ()).2 =
      [([entry], Answered Demo.accepted)] /\
    Detail entry = Demo.dumps (JDict payload) /\
    assoc "fileName" payload = Some Instances.key /\
    assoc "bucket" payload = Some Instances.bucket /\
    assoc "fileUrl" payload =
      Some (JStr "https://s3.example/my-bucket/report.pdf?X-Amz-Expires=86400").
Proof.
  split; [exact demo_event_valid |].
  apply (success_publishes_one_event Demo.runtime Demo.world_ok
           Instances.event Instances.bucket Instances.key () 86400
           "https://s3.example/my-bucket/report.pdf?X-Amz-Expires=86400"
           Demo.accepted demo_event_valid).
  - reflexivity.
  - vm_compute. reflexivity.
  - reflexivity.
Defined.



Lemma default_expiration_is_one_day_witness :
  os_environ Demo.world_ok !! "URL_EXPIRATION_SECONDS" = None /\
  valid_notification Instances.event Instances.bucket Instances.key /\
  exists ans,
    presign_calls (lambda_handler Demo.runtime Demo.world_ok Instances.event ()).2 =
      [(Instances.request 86400, ans)] /\
    match ans with
    | Failed _ =>
        put_events_calls (lambda_handler Demo.runtime Demo.world_ok Instances.event ()).2 = []
    | Answered _ =>
        exists entry payload result,
          put_events_calls (lambda_handler Demo.runtime Demo.world_ok Instances.event ()).2 =
            [([entry], result)] /\
          Detail entry = Demo.dumps (JDict payload) /\
          assoc "expirationTime" payload = Some (JStr "1 day")
    end.
Proof.
  assert (Henv : os_environ Demo.world_ok !! "URL_EXPIRATION_SECONDS" = None)
    by reflexivity.
  split; [exact Henv | split; [exact demo_event_valid |]].
  exact (default_expiration_is_one_day Demo.runtime Demo.world_ok
           Instances.event Instances.bucket Instances.key ()
           Henv demo_event_valid).
Defined.


(** ** Closed instances of the further properties *)

Lemma format_expiration_time_singular_witness :
  60 <= 119 < 120 /\ format_expiration_time 119 = "1 minute".
Proof.
  assert (H : 60 <= 119 < 120) by lia.
  split; [exact H |].
  exact (proj1 (format_expiration_time_singular 119) H).
Defined.

Lemma format_expiration_time_count_bounds_witness :
  3600 <= 86399 < 86400 /\
  exists q, 1 <= q <= 23 /\
    format_expiration_time 86399 =
      str_of_int q +:+ (if q =? 1 then " hour" else " hours").
Proof.
  assert (H : 3600 <= 86399 < 86400) by lia.
  split; [exact H |].
  exact (proj1 (proj2 (format_expiration_time_count_bounds 86399)) H).
Defined.

Lemma format_expiration_time_whole_units_witness :
  86400 <= 200000 /\
  format_expiration_time (86400 * (200000 / 86400)) = format_expiration_time 200000.
Proof.
  assert (H : 86400 <= 200000) by lia.
  split; [exact H |].
  exact (proj2 (proj2 (format_expiration_time_whole_units 200000)) H).
Defined.

Lemma invalid_notification_contacts_nothing_witness :
  missing_or_empty (bucket_name_of Configured.null_detail_event)
    || missing_or_empty (object_key_of Configured.null_detail_event) = true /\
  exists r t,
    lambda_handler Demo.runtime Demo.world_ok Configured.null_detail_event () =
      (Returned r, t) /\
    (statusCode r = 400 \/ statusCode r = 500) /\
    service_calls t = [].
Proof.
  assert (H : missing_or_empty (bucket_name_of Configured.null_detail_event)
                || missing_or_empty (object_key_of Configured.null_detail_event) = true)
    by reflexivity.
  split; [exact H |].
  exact (invalid_notification_contacts_nothing Demo.runtime Demo.world_ok
           Configured.null_detail_event () H).
Defined.

Lemma invalid_notification_rejected_witness :
  well_shaped Configured.unnamed_bucket_event = true /\
  missing_or_empty (bucket_name_of Configured.unnamed_bucket_event)
    || missing_or_empty (object_key_of Configured.unnamed_bucket_event) = true /\
  exists t,
    lambda_handler Demo.runtime Demo.world_ok Configured.unnamed_bucket_event () =
      (Returned {| statusCode := 400;
                   body := Demo.dumps (JStr "Invalid event structure") |}, t) /\
    service_calls t = [].
Proof.
  assert (Hs : well_shaped Configured.unnamed_bucket_event = true) by reflexivity.
  assert (Hm : missing_or_empty (bucket_name_of Configured.unnamed_bucket_event)
                 || missing_or_empty (object_key_of Configured.unnamed_bucket_event) = true)
    by reflexivity.
  split; [exact Hs | split; [exact Hm |]].
  exact (invalid_notification_rejected Demo.runtime Demo.world_ok
           Configured.unnamed_bucket_event () Hs Hm).
Defined.

Lemma malformed_shape_gets_500_witness :
  well_shaped Configured.null_detail_event = false /\
  exists v,
    type_name v <> "dict" /\
    lambda_handler Demo.runtime Demo.world_ok Configured.null_detail_event () =
      (Returned (fault_response Demo.runtime
                   (Exn AttributeError
                      ("'" +:+ type_name v +:+ "' object has no attribute 'get'"))),
       [ Logged INFO ("Received event: " +:+ Demo.dumps Configured.null_detail_event);
         Logged ERROR ("Unexpected error: "
                       +:+ "'" +:+ type_name v +:+ "' object has no attribute 'get'") ]).
Proof.
  assert (H : well_shaped Configured.null_detail_event = false) by reflexivity.
  split; [exact H |].
  exact (malformed_shape_gets_500 Demo.runtime Demo.world_ok
           Configured.null_detail_event () H).
Defined.

Lemma signing_call_is_for_valid_notification_witness :
  In (GeneratePresignedUrl (Instances.request 86400)
        (Answered "https://s3.example/my-bucket/report.pdf?X-Amz-Expires=86400"))
     (lambda_handler Demo.runtime Demo.world_ok Instances.event ()).2 /\
  ClientMethod (Instances.request 86400) = "get_object" /\
  valid_notification Instances.event Instances.bucket Instances.key.
Proof.
  assert (H : In (GeneratePresignedUrl (Instances.request 86400)
                    (Answered "https://s3.example/my-bucket/report.pdf?X-Amz-Expires=86400"))
                (lambda_handler Demo.runtime Demo.world_ok Instances.event ()).2)
    by (vm_compute; right; left; reflexivity).
  split; [exact H |].
  exact (signing_call_is_for_valid_notification Demo.runtime Demo.world_ok
           Instances.event () _ _ H).
Defined.

Lemma malformed_expiration_stops_the_run_witness :
  os_environ Configured.world_mislabelled !! "URL_EXPIRATION_SECONDS" = Some "1 day" /\
  int_of_str Demo.runtime "1 day" = None /\
  lambda_handler Demo.runtime Configured.world_mislabelled Instances.event () =
    (Returned (fault_response Demo.runtime
                 (Exn ValueError "invalid literal for int() with base 10: '1 day'")),
     [ Logged INFO ("Received event: " +:+ Demo.dumps Instances.event);
       Logged ERROR "Unexpected error: invalid literal for int() with base 10: '1 day'" ]).
Proof.
  assert (He : os_environ Configured.world_mislabelled !! "URL_EXPIRATION_SECONDS"
               = Some "1 day") by reflexivity.
  assert (Hi : int_of_str Demo.runtime "1 day" = None) by reflexivity.
  split; [exact He | split; [exact Hi |]].
  exact (malformed_expiration_stops_the_run Demo.runtime Configured.world_mislabelled
           Instances.event Instances.bucket Instances.key () "1 day"
           demo_event_valid He Hi).
Defined.

Lemma configured_expiration_is_used_witness :
  os_environ Configured.world_negative !! "URL_EXPIRATION_SECONDS" = Some "-5" /\
  int_of_str Demo.runtime "-5" = Some (-5) /\
  exists ans,
    presign_calls (lambda_handler Demo.runtime Configured.world_negative Instances.event ()).2 =
      [(Instances.request (-5), ans)] /\
    match ans with
    | Failed _ =>
        put_events_calls
          (lambda_handler Demo.runtime Configured.world_negative Instances.event ()).2 = []
    | Answered _ =>
        exists entry payload result,
          put_events_calls
            (lambda_handler Demo.runtime Configured.world_negative Instances.event ()).2 =
            [([entry], result)] /\
          Detail entry = Demo.dumps (JDict payload) /\
          assoc "expirationTime" payload = Some (JStr "-5 seconds")
    end.
Proof.
  assert (He : os_environ Configured.world_negative !! "URL_EXPIRATION_SECONDS"
               = Some "-5") by reflexivity.
  assert (Hi : int_of_str Demo.runtime "-5" = Some (-5)) by reflexivity.
  split; [exact He | split; [exact Hi |]].
  exact (configured_expiration_is_used Demo.runtime Configured.world_negative
           Instances.event Instances.bucket Instances.key () "-5" (-5)
           demo_event_valid He Hi).
Defined.

Lemma published_entry_routing_witness :
  In (PutEvents [Instances.entry 86400
                   "https://s3.example/my-bucket/report.pdf?X-Amz-Expires=86400"]
        (Answered Demo.accepted))
     (lambda_handler Demo.runtime Demo.world_ok Instances.event ()).2 /\
  exists entry,
    [Instances.entry 86400
       "https://s3.example/my-bucket/report.pdf?X-Amz-Expires=86400"] = [entry] /\
    Source entry = "s3-link-generator" /\
    DetailType entry = "file-link-generated" /\
    EventBusName entry = "default".
Proof.
  assert (H : In (PutEvents [Instances.entry 86400
                    "https://s3.example/my-bucket/report.pdf?X-Amz-Expires=86400"]
                    (Answered Demo.accepted))
                (lambda_handler Demo.runtime Demo.world_ok Instances.event ()).2)
    by (vm_compute; do 3 right; left; reflexivity).
  split; [exact H |].
  exact (published_entry_routing Demo.runtime Demo.world_ok Instances.event () _ _ H).
Defined.

Lemma published_payload_witness :
  In (PutEvents [Instances.entry 86400 "https://s3.example/signed"]
        (Failed Demo.no_endpoint))
     (lambda_handler Demo.runtime Instances.world_unreachable Instances.event ()).2 /\
  exists entry req url,
    [Instances.entry 86400 "https://s3.example/signed"] = [entry] /\
    presign_calls
      (lambda_handler Demo.runtime Instances.world_unreachable Instances.event ()).2 =
      [(req, Answered url)] /\
    Detail entry =
      Demo.dumps
        (JDict [ ("fileName", Key req);
                 ("fileUrl", JStr url);
                 ("bucket", Bucket req);
                 ("expirationTime", JStr (format_expiration_time (ExpiresIn req)));
                 ("timestamp", JStr "2024-01-01T00:00:00") ]).
Proof.
  assert (H : In (PutEvents [Instances.entry 86400 "https://s3.example/signed"]
                    (Failed Demo.no_endpoint))
                (lambda_handler Demo.runtime Instances.world_unreachable Instances.event ()).2)
    by (vm_compute; do 3 right; left; reflexivity).
  split; [exact H |].
  exact (published_payload Demo.runtime Instances.world_unreachable
           Instances.event () _ _ H).
Defined.

Lemma status_200_means_published_witness :
  (lambda_handler Demo.runtime Demo.world_ok Instances.event ()).1 =
    Returned {| statusCode := 200;
                body := Demo.dumps
                  (JStr "Successfully generated pre-signed URL and published event") |} /\
  exists req url entry ack,
    service_calls (lambda_handler Demo.runtime Demo.world_ok Instances.event ()).2 =
      [GeneratePresignedUrl req (Answered url); PutEvents [entry] (Answered ack)].
Proof.
  assert (H : (lambda_handler Demo.runtime Demo.world_ok Instances.event ()).1 =
              Returned {| statusCode := 200;
                          body := Demo.dumps
                            (JStr "Successfully generated pre-signed URL and published event") |})
    by (vm_compute; reflexivity).
  split; [exact H |].
  exact (status_200_means_published Demo.runtime Demo.world_ok Instances.event () _
           H eq_refl).
Defined.

Lemma status_400_means_invalid_witness :
  (lambda_handler Demo.runtime Demo.world_ok Configured.unnamed_bucket_event ()).1 =
    Returned {| statusCode := 400;
                body := Demo.dumps (JStr "Invalid event structure") |} /\
  missing_or_empty (bucket_name_of Configured.unnamed_bucket_event)
    || missing_or_empty (object_key_of Configured.unnamed_bucket_event) = true /\
  service_calls
    (lambda_handler Demo.runtime Demo.world_ok Configured.unnamed_bucket_event ()).2 = [].
Proof.
  assert (H : (lambda_handler Demo.runtime Demo.world_ok Configured.unnamed_bucket_event ()).1 =
              Returned {| statusCode := 400;
                          body := Demo.dumps (JStr "Invalid event structure") |})
    by (vm_compute; reflexivity).
  split; [exact H |].
  exact (status_400_means_invalid Demo.runtime Demo.world_ok
           Configured.unnamed_bucket_event () _ H eq_refl).
Defined.
